(** * breathUnity: the rolling-window breathing analyzer and the iOS bridge

    A shallow embedding of
      - [src/python/enhanced_belt_analysis.py] (class [BreathingAnalyzer]),
      - [src/python/ios_to_unity_bridge.py]    (class [iOSToUnityBridge]),
    and the properties the specification states about them.

    Conventions of the embedding.
      - Python numbers (int, float, the numbers of a JSON text) are exact
        rationals [Q]; rounding, NaN and the infinities of binary floating
        point are outside the model.  Numeric equality ([==] of Python) is
        [Qeq].
      - A Python exception is a [Raise] result; a [try]/[except] is a match
        on the result.
      - [collections.deque(maxlen=n)] is a list together with its bound.
      - A Python [dict] with string keys is a [gmap string _]. *)

From Stdlib Require Import QArith Qabs Qminmax Lqa.
From stdpp Require Import gmap strings list fin_maps.

Set Warnings "-register-all".
Set Default Proof Using "Type".

(** ** Python results *)

Inductive exn : Type :=
  | ValueError
  | TypeError
  | KeyError
  | IndexError
  | AttributeError
  | StatisticsError
  | UnicodeDecodeError
  | JSONDecodeError
  | OSError.

Inductive result (A : Type) : Type :=
  | Ok (a : A)
  | Raise (e : exn).
Arguments Ok {A} a.
Arguments Raise {A} e.

(** Sequencing: an exception skips the rest.  With these instances the
    notation [x ← r; k] reads as Python's statement order. *)
#[global] Instance result_bind : MBind result := λ A B k r,
  match r with
  | Ok a => k a
  | Raise e => Raise e
  end.
#[global] Instance result_ret : MRet result := λ A a, Ok a.

(** ** Comparisons and built-ins on numbers *)

(** [x > y] and [x < y] of Python, as booleans. *)
Definition py_gt (x y : Q) : bool :=
  match (x ?= y)%Q with Gt => true | _ => false end.
Definition py_lt (x y : Q) : bool :=
  match (x ?= y)%Q with Lt => true | _ => false end.

(** [max(iterable)]: the first greatest item, [ValueError] when empty. *)
Definition py_max (l : list Q) : result Q :=
  match l with
  | [] => Raise ValueError
  | x :: xs => Ok (fold_left (fun m y => if py_gt y m then y else m) xs x)
  end.

(** [min(iterable)]: the first least item, [ValueError] when empty. *)
Definition py_min (l : list Q) : result Q :=
  match l with
  | [] => Raise ValueError
  | x :: xs => Ok (fold_left (fun m y => if py_lt y m then y else m) xs x)
  end.

(** [max(a, b)] with two arguments: [b] only if [b > a]. *)
Definition py_max2 (a b : Q) : Q := if py_gt b a then b else a.

Definition py_sum (l : list Q) : Q := fold_left Qplus l 0%Q.

Definition Qlen {A : Type} (l : list A) : Q := inject_Z (Z.of_nat (length l)).

(** [seq[i]] with Python's negative indices. *)
Definition py_index {A : Type} (l : list A) (i : Z) : result A :=
  let n := Z.of_nat (length l) in
  let j := (if i <? 0 then i + n else i)%Z in
  if ((j <? 0) || (n <=? j))%Z then Raise IndexError
  else match l !! Z.to_nat j with
       | Some a => Ok a
       | None => Raise IndexError
       end.

(** [seq[-k:]]: the last [k] items, the whole sequence when it is shorter. *)
Definition py_last_slice {A : Type} (k : nat) (l : list A) : list A :=
  drop (length l - k) l.

(** ** collections.deque with a bound *)

Record deque (A : Type) := Deque { items : list A; maxlen : option nat }.
Arguments Deque {A} items maxlen.
Arguments items {A} d.
Arguments maxlen {A} d.

Definition deque_new {A : Type} (bound : option nat) : deque A := Deque [] bound.

(** [d.append(x)]: the item goes to the right end; when the bound is then
    exceeded, the leftmost item is dropped. *)
Definition deque_append {A : Type} (d : deque A) (x : A) : deque A :=
  let l := items d ++ [x] in
  match maxlen d with
  | Some n => if n <? length l then Deque (tail l) (Some n) else Deque l (Some n)
  | None => Deque l None
  end.

Definition deque_len {A : Type} (d : deque A) : nat := length (items d).

(** ** The statistics module *)

Module statistics.
Section WithSqrt.
(** [math.sqrt] on the rationals is left abstract. *)
Variable sqrt : Q → Q.

(** [statistics.mean]: [StatisticsError] on no data. *)
Definition mean (data : list Q) : result Q :=
  match data with
  | [] => Raise StatisticsError
  | _ => Ok (py_sum data / Qlen data)%Q
  end.

(** Sum of the squared deviations from the mean [c]. *)
Definition sum_sq_dev (c : Q) (data : list Q) : Q :=
  py_sum (map (fun x => (x - c) * (x - c))%Q data).

(** [statistics.variance]: the sample variance, [StatisticsError] on
    fewer than two data points. *)
Definition variance (data : list Q) : result Q :=
  if length data <? 2 then Raise StatisticsError
  else c ← mean data;
       Ok (sum_sq_dev c data / (Qlen data - 1))%Q.

(** [statistics.stdev]: the square root of the sample variance. *)
Definition stdev (data : list Q) : result Q :=
  v ← variance data; Ok (sqrt v).
End WithSqrt.
End statistics.

(** ** enhanced_belt_analysis.py: BreathingAnalyzer *)

Module Analyzer.

Record BreathingAnalyzer := mkAnalyzer {
  window_size : option nat;
  force_history : deque Q;
  resp_rate_history : deque Q;
  timestamps : deque Q;
  last_breath_time : Q;
  breath_count : Z;
  session_start : Q;
  breathing_depth : Q;
  breathing_regularity : Q;
  breathing_intensity : Q
}.

(** One call [add_sample(force, resp_rate, timestamp)]. *)
Record sample := Sample { s_force : Q; s_resp_rate : Q; s_timestamp : Q }.

(** [__init__(window_size)], called at wall-clock time [now]. *)
Definition init (ws : option nat) (now : Q) : BreathingAnalyzer :=
  {| window_size := ws;
     force_history := deque_new ws;
     resp_rate_history := deque_new ws;
     timestamps := deque_new ws;
     last_breath_time := 0;
     breath_count := 0;
     session_start := now;
     breathing_depth := 0;
     breathing_regularity := 0;
     breathing_intensity := 0 |}.

Definition set_histories (st : BreathingAnalyzer) (f r t : deque Q) : BreathingAnalyzer :=
  {| window_size := window_size st;
     force_history := f;
     resp_rate_history := r;
     timestamps := t;
     last_breath_time := last_breath_time st;
     breath_count := breath_count st;
     session_start := session_start st;
     breathing_depth := breathing_depth st;
     breathing_regularity := breathing_regularity st;
     breathing_intensity := breathing_intensity st |}.

Definition set_breathing_depth (st : BreathingAnalyzer) (v : Q) : BreathingAnalyzer :=
  {| window_size := window_size st;
     force_history := force_history st;
     resp_rate_history := resp_rate_history st;
     timestamps := timestamps st;
     last_breath_time := last_breath_time st;
     breath_count := breath_count st;
     session_start := session_start st;
     breathing_depth := v;
     breathing_regularity := breathing_regularity st;
     breathing_intensity := breathing_intensity st |}.

Definition set_breathing_regularity (st : BreathingAnalyzer) (v : Q) : BreathingAnalyzer :=
  {| window_size := window_size st;
     force_history := force_history st;
     resp_rate_history := resp_rate_history st;
     timestamps := timestamps st;
     last_breath_time := last_breath_time st;
     breath_count := breath_count st;
     session_start := session_start st;
     breathing_depth := breathing_depth st;
     breathing_regularity := v;
     breathing_intensity := breathing_intensity st |}.

Definition set_breathing_intensity (st : BreathingAnalyzer) (v : Q) : BreathingAnalyzer :=
  {| window_size := window_size st;
     force_history := force_history st;
     resp_rate_history := resp_rate_history st;
     timestamps := timestamps st;
     last_breath_time := last_breath_time st;
     breath_count := breath_count st;
     session_start := session_start st;
     breathing_depth := breathing_depth st;
     breathing_regularity := breathing_regularity st;
     breathing_intensity := v |}.

(** The values of the mapping [get_derived_metrics] returns. *)
Inductive metric : Type :=
  | MNum (q : Q)
  | MInt (z : Z).

Section WithStdev.
(** [statistics.stdev] is the Python library's: the analyzer is
    embedded over any such function, and [statistics.stdev] above is
    the instance on exact rationals. *)
Variable stdev : list Q → result Q.

(** [_update_breathing_depth] *)
Definition _update_breathing_depth (st : BreathingAnalyzer) : result BreathingAnalyzer :=
  if deque_len (force_history st) <? 10 then Ok st
  else hi ← py_max (items (force_history st));
       lo ← py_min (items (force_history st));
       Ok (set_breathing_depth st (hi - lo)%Q).

(** [_update_breathing_regularity]: the bare [except] turns any failure
    of the standard deviation into regularity 0. *)
Definition _update_breathing_regularity (st : BreathingAnalyzer) : result BreathingAnalyzer :=
  if deque_len (resp_rate_history st) <? 10 then Ok st
  else match stdev (items (resp_rate_history st)) with
       | Ok std_dev => Ok (set_breathing_regularity st (py_max2 0 (1 - std_dev / 10))%Q)
       | Raise _ => Ok (set_breathing_regularity st 0%Q)
       end.

(** [_update_breathing_intensity] *)
Definition _update_breathing_intensity (st : BreathingAnalyzer) : result BreathingAnalyzer :=
  if deque_len (force_history st) <? 5 then Ok st
  else m ← statistics.mean (map Qabs (items (force_history st)));
       Ok (set_breathing_intensity st m).

(** [add_sample] *)
Definition add_sample (st : BreathingAnalyzer) (s : sample) : result BreathingAnalyzer :=
  let st0 := set_histories st
               (deque_append (force_history st) (s_force s))
               (deque_append (resp_rate_history st) (s_resp_rate s))
               (deque_append (timestamps st) (s_timestamp s)) in
  st1 ← _update_breathing_depth st0;
  st2 ← _update_breathing_regularity st1;
  _update_breathing_intensity st2.

(** A sequence of calls to [add_sample], in order. *)
Fixpoint add_samples (st : BreathingAnalyzer) (ss : list sample) : result BreathingAnalyzer :=
  match ss with
  | [] => Ok st
  | s :: rest => st' ← add_sample st s; add_samples st' rest
  end.

(** [_calculate_trend] *)
Definition _calculate_trend (data : deque Q) : result Z :=
  if deque_len data <? 5 then Ok 0%Z
  else
    let recent := py_last_slice 5 (items data) in
    last ← py_index recent (-1);
    first ← py_index recent 0;
    if py_gt last (first + 0.1)%Q then Ok 1%Z
    else if py_lt last (first - 0.1)%Q then Ok (-1)%Z
    else Ok 0%Z.

(** [get_derived_metrics], called at wall-clock time [now]. *)
Definition get_derived_metrics (st : BreathingAnalyzer) (now : Q)
  : result (gmap string metric) :=
  avg ← (match items (resp_rate_history st) with
         | [] => Ok 0%Q
         | _ => statistics.mean (items (resp_rate_history st))
         end);
  ft ← _calculate_trend (force_history st);
  rt ← _calculate_trend (resp_rate_history st);
  Ok (<["breathing_depth" := MNum (breathing_depth st)]>
      (<["breathing_regularity" := MNum (breathing_regularity st)]>
      (<["breathing_intensity" := MNum (breathing_intensity st)]>
      (<["session_duration" := MNum (now - session_start st)%Q]>
      (<["avg_resp_rate" := MNum avg]>
      (<["force_trend" := MInt ft]>
      (<["resp_rate_trend" := MInt rt]> ∅))))))).
End WithStdev.

(** *** Vocabulary of the properties *)

(** The last [C] items of everything appended so far: what a rolling
    buffer of capacity [C] is specified to hold. *)
Definition window {A : Type} (ws : option nat) (appended : list A) : list A :=
  match ws with
  | Some C => drop (length appended - C) appended
  | None => appended
  end.

(** A buffer of capacity [C] after the values [appended]: the last [C]
    of them in insertion order once more than [C] were appended, all of
    them before, and never more than [C]. *)
Definition holds_last {A : Type} (C : nat) (appended buf : list A) : Prop :=
  (C < length appended →
     length buf = C ∧ buf = drop (length appended - C) appended) ∧
  (length appended ≤ C →
     length buf = length appended ∧ buf = appended) ∧
  length buf ≤ C.

(** [hi] is a greatest item of [l]; [lo] is a least item of [l]. *)
Definition greatest (hi : Q) (l : list Q) : Prop :=
  hi ∈ l ∧ ∀ x, x ∈ l → (x <= hi)%Q.
Definition least (lo : Q) (l : list Q) : Prop :=
  lo ∈ l ∧ ∀ x, x ∈ l → (lo <= x)%Q.

(** [d] is the range, max minus min, of the buffer [buf]. *)
Definition range_of (buf : list Q) (d : Q) : Prop :=
  ∃ hi lo, py_max buf = Ok hi ∧ py_min buf = Ok lo ∧ d = (hi - lo)%Q.

(** [r] is the regularity of the buffer [buf]: max(0, 1 - stdev/10), and
    0 when the standard deviation fails. *)
Definition regularity_of (stdev : list Q → result Q) (buf : list Q) (r : Q) : Prop :=
  r = match stdev buf with
      | Ok std_dev => py_max2 0 (1 - std_dev / 10)%Q
      | Raise _ => 0%Q
      end.

(** Two analyzer states with the same buffers and configuration. *)
Definition same_buffers (st st' : BreathingAnalyzer) : Prop :=
  window_size st' = window_size st ∧
  session_start st' = session_start st ∧
  force_history st' = force_history st ∧
  resp_rate_history st' = resp_rate_history st ∧
  timestamps st' = timestamps st.


(** [n] samples with force 1, 2, ..., [n], respiration rate [r] and
    timestamp 0, for the examples. *)
Definition ramp (r : Q) (n : nat) : list sample :=
  map (fun k => Sample (inject_Z (Z.of_nat k)) r 0) (seq 1 n).

End Analyzer.

(** A rational stand-in for [math.sqrt] in the examples: the integer
    square root of the integer part. *)
Definition floor_sqrt (q : Q) : Q :=
  inject_Z (Z.sqrt (Qnum q / Zpos (Qden q))).

(** ** ios_to_unity_bridge.py: iOSToUnityBridge *)

(** What [json.loads] returns. *)
Inductive json : Type :=
  | JNull
  | JBool (b : bool)
  | JNum (q : Q)
  | JStr (s : string)
  | JArr (l : list json)
  | JObj (m : gmap string json).

(** [sub in s] on strings: [sub] occurs in [s]. *)
Fixpoint str_contains (sub s : string) : bool :=
  String.prefix sub s ||
  match s with
  | EmptyString => false
  | String _ s' => str_contains sub s'
  end.

(** [key in v] for a string [key]. *)
Definition py_contains (key : string) (v : json) : result bool :=
  match v with
  | JObj m => Ok (bool_decide (is_Some (m !! key)))
  | JArr l => Ok (existsb (fun x => match x with
                                    | JStr s => String.eqb s key
                                    | _ => false
                                    end) l)
  | JStr s => Ok (str_contains key s)
  | JNull | JBool _ | JNum _ => Raise TypeError
  end.

(** [v[key]] for a string [key]. *)
Definition py_getitem (v : json) (key : string) : result json :=
  match v with
  | JObj m => match m !! key with
              | Some x => Ok x
              | None => Raise KeyError
              end
  | _ => Raise TypeError
  end.

(** [v.get(key, dflt)]: only a dict has the method. *)
Definition py_get (v : json) (key : string) (dflt : json) : result json :=
  match v with
  | JObj m => Ok (default dflt (m !! key))
  | _ => Raise AttributeError
  end.

(** [v > 0]: defined on numbers and booleans ([True] is 1). *)
Definition py_gt0 (v : json) : result bool :=
  match v with
  | JNum q => Ok (py_gt q 0)
  | JBool b => Ok b
  | _ => Raise TypeError
  end.

(** The truth value of [v] in a condition. *)
Definition py_truthy (v : json) : bool :=
  match v with
  | JNull => false
  | JBool b => b
  | JNum q => negb (Qeq_bool q 0)
  | JStr s => negb (String.eqb s "")
  | JArr l => negb (bool_decide (length l = 0))
  | JObj m => negb (bool_decide (size m = 0))
  end.

Module Bridge.

(** The fields of the bridge object; the two sockets are the environment
    of [receive_from_ios] below. *)
Record iOSToUnityBridge := mkBridge {
  running : bool;
  last_hrv : json;
  last_breathing_phase : json;
  last_phase_duration : json
}.

(** [__init__] *)
Definition init : iOSToUnityBridge :=
  {| running := false;
     last_hrv := JNum 0;
     last_breathing_phase := JStr "";
     last_phase_duration := JNum 0 |}.

(** A method body: it may assign fields of [self] and may raise; the
    assignments made before an exception stay. *)
Definition method (A : Type) : Type :=
  iOSToUnityBridge → iOSToUnityBridge * result A.

#[global] Instance method_bind : MBind method := λ A B k m self,
  match m self with
  | (self', Ok a) => k a self'
  | (self', Raise e) => (self', Raise e)
  end.
#[global] Instance method_ret : MRet method := λ A a self, (self, Ok a).

Definition eval {A : Type} (r : result A) : method A := λ self, (self, r).
Definition read {A : Type} (f : iOSToUnityBridge → A) : method A :=
  λ self, (self, Ok (f self)).
Definition when (c : bool) (m : method ()) : method () :=
  if c then m else mret ().

Definition set_last_hrv (v : json) : method () := λ self,
  ({| running := running self; last_hrv := v;
      last_breathing_phase := last_breathing_phase self;
      last_phase_duration := last_phase_duration self |}, Ok ()).
Definition set_last_breathing_phase (v : json) : method () := λ self,
  ({| running := running self; last_hrv := last_hrv self;
      last_breathing_phase := v;
      last_phase_duration := last_phase_duration self |}, Ok ()).
Definition set_last_phase_duration (v : json) : method () := λ self,
  ({| running := running self; last_hrv := last_hrv self;
      last_breathing_phase := last_breathing_phase self;
      last_phase_duration := v |}, Ok ()).
Definition set_running (b : bool) (self : iOSToUnityBridge) : iOSToUnityBridge :=
  {| running := b; last_hrv := last_hrv self;
     last_breathing_phase := last_breathing_phase self;
     last_phase_duration := last_phase_duration self |}.

(** [a and b] in a condition, [b] evaluated only when [a] holds. *)
Definition py_and (a : method bool) (b : method bool) : method bool :=
  a ≫= λ x : bool, if x then b else mret false.

(** [convert_to_unity_format(ios_data)]; [now] is what [time.time()]
    returns during the call. *)
Definition convert_to_unity_format (ios_data : json) (now : Q)
  : method (gmap string json) :=
  c1 ← py_and (eval (py_contains "hrv" ios_data))
              (v ← eval (py_getitem ios_data "hrv"); eval (py_gt0 v));
  when c1 (v ← eval (py_getitem ios_data "hrv"); set_last_hrv v);;
  c2 ← py_and (eval (py_contains "breathing_phase" ios_data))
              (v ← eval (py_getitem ios_data "breathing_phase");
               mret (py_truthy v));
  when c2 (v ← eval (py_getitem ios_data "breathing_phase");
           set_last_breathing_phase v);;
  c3 ← eval (py_contains "phase_duration" ios_data);
  when c3 (v ← eval (py_getitem ios_data "phase_duration");
           set_last_phase_duration v);;
  heart_rate ← eval (py_get ios_data "heart_rate" (JNum 0));
  hrv ← read last_hrv;
  phase ← read last_breathing_phase;
  duration ← read last_phase_duration;
  t ← eval (py_get ios_data "timestamp" (JNum now));
  mret (<["heart_rate_bpm" := heart_rate]>
       (<["hrv" := hrv]>
       (<["breathing_phase" := phase]>
       (<["phase_duration" := duration]>
       (<["force" := JNum 0]>
       (<["resp_rate_bpm" := JNum 0]>
       (<["steps" := JNum 0]>
       (<["step_rate_spm" := JNum 0]>
       (<["t" := t]> ∅))))))))).

(** What the process prints. *)
Inductive log_entry : Type :=
  | LogReceived (addr : string) (json_str : string)
  | LogReceiveError (e : exn)
  | LogSent (unity_data : gmap string json)
  | LogSendError (e : exn).

(** The bridge object together with what it has done so far: the
    mappings handed to the Unity socket and the lines printed, oldest
    first. *)
Record world := mkWorld {
  self : iOSToUnityBridge;
  sent : list (gmap string json);
  log : list log_entry
}.

Definition print (e : log_entry) (w : world) : world :=
  {| self := self w; sent := sent w; log := log w ++ [e] |}.
Definition set_self (w : world) (b : iOSToUnityBridge) : world :=
  {| self := b; sent := sent w; log := log w |}.

(** What the environment does during one turn of the receive loop: the
    outcome of [recvfrom] (payload and sender address), the clock, and
    the outcome of [sendto]. *)
Record turn := mkTurn {
  recvfrom : result (list Byte.byte * string);
  clock : Q;
  sendto : result ()
}.

(** [send_to_unity(unity_data)]: a failing send is caught and printed. *)
Definition send_to_unity (unity_data : gmap string json) (outcome : result ())
    (w : world) : world :=
  match outcome with
  | Ok _ => print (LogSent unity_data)
              {| self := self w; sent := sent w ++ [unity_data]; log := log w |}
  | Raise e => print (LogSendError e) w
  end.

Section WithCodec.
(** [bytes.decode('utf-8')] and [json.loads] are the Python library's. *)
Variable decode_utf8 : list Byte.byte → result string.
Variable json_loads : string → result json.

(** The [except Exception] handler of the receive loop. *)
Definition on_receive_error (e : exn) (w : world) : world :=
  if running (self w) then print (LogReceiveError e) w else w.

(** The body of the [while self.running] loop of [receive_from_ios]. *)
Definition receive_once (ev : turn) (w : world) : world :=
  match recvfrom ev with
  | Raise e => on_receive_error e w
  | Ok (data, addr) =>
    match decode_utf8 data with
    | Raise e => on_receive_error e w
    | Ok json_str =>
      let w1 := print (LogReceived addr json_str) w in
      match json_loads json_str with
      | Raise e => on_receive_error e w1
      | Ok ios_data =>
        let '(self', r) := convert_to_unity_format ios_data (clock ev) (self w1) in
        let w2 := set_self w1 self' in
        match r with
        | Raise e => on_receive_error e w2
        | Ok unity_data => send_to_unity unity_data (sendto ev) w2
        end
      end
    end
  end.

(** [receive_from_ios] over the turns the environment offers: the loop
    goes on as long as [running] is set. *)
Fixpoint receive_from_ios (evs : list turn) (w : world) : world :=
  match evs with
  | [] => w
  | ev :: rest =>
    if running (self w) then receive_from_ios rest (receive_once ev w)
    else w
  end.
End WithCodec.

(** *** Vocabulary of the properties *)

(** The nine keys of the mapping sent to Unity. *)
Definition unity_keys : gset string :=
  {[ "heart_rate_bpm"; "hrv"; "breathing_phase"; "phase_duration"; "force";
     "resp_rate_bpm"; "steps"; "step_rate_spm"; "t" ]}.

(** The value a message gives for [key]: none unless it is an object
    that has the key. *)
Definition supplied (key : string) (msg : json) : option json :=
  match msg with
  | JObj m => m !! key
  | _ => None
  end.

#[global] Instance Qlt_decision (x y : Q) : Decision (x < y)%Q :=
  match Qlt_le_dec x y with
  | left H => left H
  | right H => right (Qle_not_lt _ _ H)
  end.

(** A JSON value that is strictly positive as a number. *)
Definition positive (v : json) : bool :=
  match v with
  | JNum q => bool_decide (0 < q)%Q
  | JBool b => b
  | _ => false
  end.

(** A message [convert_to_unity_format] returns normally on: an object
    whose [hrv], if any, can be compared with 0. *)
Definition accepted (msg : json) : bool :=
  match msg with
  | JObj m => match m !! "hrv" with
              | None | Some (JNum _) | Some (JBool _) => true
              | Some _ => false
              end
  | _ => false
  end.

(** The cached values after a message, as the code updates them: [hrv]
    when supplied and strictly positive, [breathing_phase] when supplied
    and truthy, [phase_duration] whenever supplied; the last two only on
    an accepted message. *)
Definition hrv_after (msg : json) (b : iOSToUnityBridge) : json :=
  match supplied "hrv" msg with
  | Some v => if positive v then v else last_hrv b
  | None => last_hrv b
  end.
Definition breathing_phase_after (msg : json) (b : iOSToUnityBridge) : json :=
  match supplied "breathing_phase" msg with
  | Some v => if accepted msg && py_truthy v then v else last_breathing_phase b
  | None => last_breathing_phase b
  end.
Definition phase_duration_after (msg : json) (b : iOSToUnityBridge) : json :=
  match supplied "phase_duration" msg with
  | Some v => if accepted msg then v else last_phase_duration b
  | None => last_phase_duration b
  end.

(** The cached values after a message, as C1 states them: every field is
    overwritten only by a supplied value that is not the default. *)
Definition non_default (v : json) : bool := py_truthy v.
Definition phase_duration_claimed (msg : json) (b : iOSToUnityBridge) : json :=
  match supplied "phase_duration" msg with
  | Some v => if non_default v then v else last_phase_duration b
  | None => last_phase_duration b
  end.

(** The fixed part of a mapping sent to Unity: exactly the nine keys,
    and 0 for the four fields the phone never supplies. *)
Definition unity_shape (out : gmap string json) : Prop :=
  dom out = unity_keys ∧
  out !! "force" = Some (JNum 0) ∧
  out !! "resp_rate_bpm" = Some (JNum 0) ∧
  out !! "steps" = Some (JNum 0) ∧
  out !! "step_rate_spm" = Some (JNum 0).

(** A message as a JSON object literal. *)
Definition obj (fields : list (string * json)) : json :=
  JObj (list_to_map fields).

(** A sequence of calls to [convert_to_unity_format], as the receive loop
    makes them; an exception in one call does not stop the next. *)
Fixpoint convert_all (msgs : list (json * Q)) (b : iOSToUnityBridge)
  : iOSToUnityBridge :=
  match msgs with
  | [] => b
  | (m, now) :: rest => convert_all rest (convert_to_unity_format m now b).1
  end.

End Bridge.

(** * Properties of the analyzer *)

Module AnalyzerProofs.
Import Analyzer.

(** ** Rolling buffers *)

Lemma window_length {A : Type} (ws : option nat) (l : list A) :
  length (window ws l) =
  match ws with Some C => Nat.min (length l) C | None => length l end.
Proof.
  destruct ws as [C|]; simpl; [|done].
  rewrite length_drop. lia.
Qed.

Lemma tail_drop {A : Type} (k : nat) (l : list A) :
  tail (drop k l) = drop (S k) l.
Proof.
  revert l. induction k as [|k IH]; intros [|y l]; simpl; rewrite ?drop_0; auto.
Qed.

Lemma deque_append_window {A : Type} (ws : option nat) (l : list A) (x : A) :
  deque_append (Deque (window ws l) ws) x = Deque (window ws (l ++ [x])) ws.
Proof.
  unfold deque_append. simpl. destruct ws as [C|]; simpl; [|done].
  rewrite !length_app, length_drop. simpl.
  destruct (Nat.ltb_spec C (length l - (length l - C) + 1)) as [Hlt | Hge].
  - f_equal.
    replace (length l + 1 - C) with (S (length l - C)) by lia.
    rewrite <- (drop_app_le l [x] (length l - C)) by lia.
    apply tail_drop.
  - f_equal.
    replace (length l + 1 - C) with 0 by lia.
    replace (length l - C) with 0 by lia.
    by rewrite !drop_0.
Qed.

Lemma deque_append_len_mono {A : Type} (d : deque A) (x : A) :
  deque_len d ≤ deque_len (deque_append d x).
Proof.
  unfold deque_len, deque_append. destruct d as [l [C|]]; simpl.
  - destruct (Nat.ltb_spec C (length (l ++ [x]))); simpl.
    + destruct l; simpl; rewrite ?length_app; simpl; lia.
    + rewrite length_app. simpl. lia.
  - rewrite length_app. simpl. lia.
Qed.

(** ** Comparisons, [max] and [min] *)

Lemma py_gt_true (x y : Q) : py_gt x y = true ↔ (y < x)%Q.
Proof.
  unfold py_gt. destruct (Qcompare_spec x y) as [H | H | H]; split; intros H';
    try done; lra.
Qed.

Lemma py_lt_true (x y : Q) : py_lt x y = true ↔ (x < y)%Q.
Proof.
  unfold py_lt. destruct (Qcompare_spec x y) as [H | H | H]; split; intros H';
    try done; lra.
Qed.

Lemma fold_max_spec (xs : list Q) (m : Q) :
  let r := fold_left (fun m y => if py_gt y m then y else m) xs m in
  (r = m ∨ r ∈ xs) ∧ (m <= r)%Q ∧ ∀ x, x ∈ xs → (x <= r)%Q.
Proof.
  revert m. induction xs as [|y xs IH]; intros m; simpl.
  - split; [by left|]. split; [lra|]. intros x Hx. by apply elem_of_nil in Hx.
  - destruct (IH (if py_gt y m then y else m)) as (Hin & Hle & Hall).
    destruct (py_gt y m) eqn:Hgt.
    + apply py_gt_true in Hgt. split; [|split].
      * right. destruct Hin as [-> | Hin]; [left | by right].
      * lra.
      * intros x [-> | Hx]%elem_of_cons; [done | by apply Hall].
    + assert (y <= m)%Q as Hym.
      { destruct (Qlt_le_dec m y) as [Hlt | Hge]; [|done].
        apply py_gt_true in Hlt. congruence. }
      split; [|split].
      * destruct Hin as [-> | Hin]; [by left | right; by right].
      * done.
      * intros x [-> | Hx]%elem_of_cons; [lra | by apply Hall].
Qed.

Lemma fold_min_spec (xs : list Q) (m : Q) :
  let r := fold_left (fun m y => if py_lt y m then y else m) xs m in
  (r = m ∨ r ∈ xs) ∧ (r <= m)%Q ∧ ∀ x, x ∈ xs → (r <= x)%Q.
Proof.
  revert m. induction xs as [|y xs IH]; intros m; simpl.
  - split; [by left|]. split; [lra|]. intros x Hx. by apply elem_of_nil in Hx.
  - destruct (IH (if py_lt y m then y else m)) as (Hin & Hle & Hall).
    destruct (py_lt y m) eqn:Hlt.
    + apply py_lt_true in Hlt. split; [|split].
      * right. destruct Hin as [-> | Hin]; [left | by right].
      * lra.
      * intros x [-> | Hx]%elem_of_cons; [done | by apply Hall].
    + assert (m <= y)%Q as Hym.
      { destruct (Qlt_le_dec y m) as [Hlt' | Hge]; [|done].
        apply py_lt_true in Hlt'. congruence. }
      split; [|split].
      * destruct Hin as [-> | Hin]; [by left | right; by right].
      * done.
      * intros x [-> | Hx]%elem_of_cons; [lra | by apply Hall].
Qed.

(** On a non-empty sequence [max] returns a greatest item. *)
Lemma py_max_greatest (l : list Q) :
  0 < length l → ∃ hi, py_max l = Ok hi ∧ greatest hi l.
Proof.
  destruct l as [|x xs]; simpl; [lia|]. intros _.
  destruct (fold_max_spec xs x) as (Hin & Hle & Hall).
  eexists. split; [done|]. split.
  - destruct Hin as [-> | Hin]; [left | by right].
  - intros y [-> | Hy]%elem_of_cons; [done | by apply Hall].
Qed.

(** On a non-empty sequence [min] returns a least item. *)
Lemma py_min_least (l : list Q) :
  0 < length l → ∃ lo, py_min l = Ok lo ∧ least lo l.
Proof.
  destruct l as [|x xs]; simpl; [lia|]. intros _.
  destruct (fold_min_spec xs x) as (Hin & Hle & Hall).
  eexists. split; [done|]. split.
  - destruct Hin as [-> | Hin]; [left | by right].
  - intros y [-> | Hy]%elem_of_cons; [done | by apply Hall].
Qed.

(** ** One call to add_sample *)

Section WithStdev.
Variable stdev : list Q → result Q.

Lemma update_depth_spec (st : BreathingAnalyzer) :
  ∃ st', _update_breathing_depth st = Ok st' ∧ same_buffers st st' ∧
    breathing_regularity st' = breathing_regularity st ∧
    if deque_len (force_history st) <? 10
    then breathing_depth st' = breathing_depth st
    else range_of (items (force_history st)) (breathing_depth st').
Proof.
  unfold _update_breathing_depth, deque_len.
  destruct (Nat.ltb_spec (length (items (force_history st))) 10) as [Hlt | Hge].
  - by exists st.
  - destruct (py_max_greatest (items (force_history st))) as (hi & Hhi & _); [lia|].
    destruct (py_min_least (items (force_history st))) as (lo & Hlo & _); [lia|].
    rewrite Hhi, Hlo. simpl. eexists. split; [done|]. simpl.
    repeat split. by exists hi, lo.
Qed.

Lemma update_regularity_spec (st : BreathingAnalyzer) :
  ∃ st', _update_breathing_regularity stdev st = Ok st' ∧ same_buffers st st' ∧
    breathing_depth st' = breathing_depth st ∧
    if deque_len (resp_rate_history st) <? 10
    then breathing_regularity st' = breathing_regularity st
    else regularity_of stdev (items (resp_rate_history st)) (breathing_regularity st').
Proof.
  unfold _update_breathing_regularity, regularity_of, deque_len.
  destruct (Nat.ltb_spec (length (items (resp_rate_history st))) 10) as [Hlt | Hge].
  - by exists st.
  - destruct (stdev (items (resp_rate_history st))) as [sd | e];
      eexists; (split; [done|]); simpl; repeat split.
Qed.

Lemma update_intensity_spec (st : BreathingAnalyzer) :
  ∃ st', _update_breathing_intensity st = Ok st' ∧ same_buffers st st' ∧
    breathing_depth st' = breathing_depth st ∧
    breathing_regularity st' = breathing_regularity st.
Proof.
  unfold _update_breathing_intensity, deque_len.
  destruct (Nat.ltb_spec (length (items (force_history st))) 5) as [Hlt | Hge].
  - by exists st.
  - destruct (items (force_history st)) as [|x xs]; [simpl in Hge; lia|].
    simpl. eexists. split; [done|]. simpl. repeat split.
Qed.

(** [add_sample] never raises; it appends to the three buffers and
    recomputes depth and regularity from the buffers it has then. *)
Lemma add_sample_spec (st : BreathingAnalyzer) (s : sample) :
  ∃ st', add_sample stdev st s = Ok st' ∧
    window_size st' = window_size st ∧
    session_start st' = session_start st ∧
    force_history st' = deque_append (force_history st) (s_force s) ∧
    resp_rate_history st' = deque_append (resp_rate_history st) (s_resp_rate s) ∧
    timestamps st' = deque_append (timestamps st) (s_timestamp s) ∧
    (if deque_len (force_history st') <? 10
     then breathing_depth st' = breathing_depth st
     else range_of (items (force_history st')) (breathing_depth st')) ∧
    (if deque_len (resp_rate_history st') <? 10
     then breathing_regularity st' = breathing_regularity st
     else regularity_of stdev (items (resp_rate_history st')) (breathing_regularity st')).
Proof.
  unfold add_sample.
  set (st0 := set_histories st _ _ _).
  destruct (update_depth_spec st0) as (st1 & -> & (Hw1 & Hs1 & Hf1 & Hr1 & Ht1) & Hreg1 & Hd1).
  destruct (update_regularity_spec st1) as (st2 & E2 & (Hw2 & Hs2 & Hf2 & Hr2 & Ht2) & Hdep2 & Hreg2).
  destruct (update_intensity_spec st2) as (st3 & E3 & (Hw3 & Hs3 & Hf3 & Hr3 & Ht3) & Hdep3 & Hreg3).
  exists st3. simpl. rewrite E2. simpl. rewrite E3. split; [done|].
  rewrite Hw3, Hw2, Hw1, Hs3, Hs2, Hs1, Hf3, Hf2, Hf1, Hr3, Hr2, Hr1, Ht3, Ht2, Ht1.
  repeat (split; [done|]).
  rewrite Hdep3, Hdep2, Hreg3. rewrite Hr1 in Hreg2. rewrite Hreg1 in Hreg2.
  split; [exact Hd1 | exact Hreg2].
Qed.

Lemma add_samples_snoc (st : BreathingAnalyzer) (ss : list sample) (s : sample) :
  add_samples stdev st (ss ++ [s]) =
  (st' ← add_samples stdev st ss; add_sample stdev st' s).
Proof.
  revert st. induction ss as [|s0 ss IH]; intros st; simpl.
  - by destruct (add_sample stdev st s).
  - destruct (add_sample stdev st s0) as [st0 | e]; simpl; [apply IH | done].
Qed.

(** The state after any sequence of calls, from a fresh analyzer. *)
Lemma add_samples_spec (ws : option nat) (now : Q) (ss : list sample) :
  ∃ st, add_samples stdev (init ws now) ss = Ok st ∧
    window_size st = ws ∧
    session_start st = now ∧
    force_history st = Deque (window ws (s_force <$> ss)) ws ∧
    resp_rate_history st = Deque (window ws (s_resp_rate <$> ss)) ws ∧
    timestamps st = Deque (window ws (s_timestamp <$> ss)) ws ∧
    (if deque_len (force_history st) <? 10
     then breathing_depth st = 0%Q
     else range_of (items (force_history st)) (breathing_depth st)) ∧
    (if deque_len (resp_rate_history st) <? 10
     then breathing_regularity st = 0%Q
     else regularity_of stdev (items (resp_rate_history st)) (breathing_regularity st)).
Proof.
  induction ss as [|s ss IH] using rev_ind.
  - exists (init ws now). simpl. repeat split; by destruct ws.
  - destruct IH as (st & E & Hw & Hs & Hf & Hr & Ht & Hdep & Hreg).
    destruct (add_sample_spec st s) as (st' & E' & Hw' & Hs' & Hf' & Hr' & Ht' & Hdep' & Hreg').
    exists st'. rewrite add_samples_snoc, E. simpl. split; [done|].
    rewrite !fmap_app. simpl. rewrite <- !deque_append_window.
    rewrite <- Hf, <- Hr, <- Ht, <- Hf', <- Hr', <- Ht'.
    split; [congruence|]. split; [congruence|]. repeat (split; [done|]).
    split.
    + destruct (Nat.ltb_spec (deque_len (force_history st')) 10) as [Hlt | Hge]; [|done].
      rewrite Hdep'. pose proof (deque_append_len_mono (force_history st) (s_force s)) as Hm.
      rewrite <- Hf' in Hm.
      destruct (Nat.ltb_spec (deque_len (force_history st)) 10); [done | lia].
    + destruct (Nat.ltb_spec (deque_len (resp_rate_history st')) 10) as [Hlt | Hge]; [|done].
      rewrite Hreg'. pose proof (deque_append_len_mono (resp_rate_history st) (s_resp_rate s)) as Hm.
      rewrite <- Hr' in Hm.
      destruct (Nat.ltb_spec (deque_len (resp_rate_history st)) 10); [done | lia].
Qed.

(** [_calculate_trend] on a buffer that ends with five given items. *)
Lemma calculate_trend_tail (pre : list Q) (x0 x1 x2 x3 x4 : Q) (bound : option nat) :
  _calculate_trend (Deque (pre ++ [x0; x1; x2; x3; x4]) bound) =
  Ok (if py_gt x4 (x0 + 0.1)%Q then 1
      else if py_lt x4 (x0 - 0.1)%Q then -1 else 0)%Z.
Proof.
  unfold _calculate_trend, deque_len, py_last_slice. simpl.
  rewrite length_app. simpl.
  destruct (Nat.ltb_spec (length pre + 5) 5) as [Hlt | _]; [lia|].
  replace (length pre + 5 - 5) with (length pre) by lia.
  rewrite drop_app_length. simpl.
  by destruct (py_gt x4 (x0 + 0.1)%Q), (py_lt x4 (x0 - 0.1)%Q).
Qed.

Lemma five_item_tail {A : Type} (l : list A) :
  5 ≤ length l → ∃ pre x0 x1 x2 x3 x4, l = pre ++ [x0; x1; x2; x3; x4].
Proof.
  intros Hlen. exists (take (length l - 5) l).
  pose proof (take_drop (length l - 5) l) as Hsplit.
  assert (length (drop (length l - 5) l) = 5) as Hd by (rewrite length_drop; lia).
  destruct (drop (length l - 5) l) as [|x0 [|x1 [|x2 [|x3 [|x4 [|x5 r]]]]]];
    simpl in Hd; try lia.
  by exists x0, x1, x2, x3, x4.
Qed.

Lemma calculate_trend_total (data : deque Q) : ∃ z, _calculate_trend data = Ok z.
Proof.
  destruct (Nat.ltb_spec (deque_len data) 5) as [Hlt | Hge].
  - exists 0%Z. unfold _calculate_trend.
    by rewrite (proj2 (Nat.ltb_lt _ _) Hlt).
  - destruct data as [l bound]. unfold deque_len in Hge. simpl in Hge.
    destruct (five_item_tail l Hge) as (pre & x0 & x1 & x2 & x3 & x4 & ->).
    eexists. apply calculate_trend_tail.
Qed.

(** [get_derived_metrics] never raises and reports the stored depth and
    regularity. *)
Lemma get_derived_metrics_ok (st : BreathingAnalyzer) (now : Q) :
  ∃ m, get_derived_metrics st now = Ok m ∧
    m !! "breathing_depth" = Some (MNum (breathing_depth st)) ∧
    m !! "breathing_regularity" = Some (MNum (breathing_regularity st)).
Proof.
  unfold get_derived_metrics.
  destruct (calculate_trend_total (force_history st)) as [ft ->].
  destruct (calculate_trend_total (resp_rate_history st)) as [rt ->].
  destruct (items (resp_rate_history st)) as [|x xs]; simpl;
    (eexists; split; [done|]); split; by simplify_map_eq.
Qed.
End WithStdev.

End AnalyzerProofs.

(** ** The specification's claims about the analyzer *)

Module AnalyzerClaims.
Import Analyzer AnalyzerProofs.

Lemma window_holds_last {A : Type} (C : nat) (l : list A) :
  holds_last C l (window (Some C) l).
Proof.
  unfold holds_last, window. rewrite length_drop. repeat split; try lia.
  replace (length l - C) with 0 by lia. apply drop_0.
Qed.

(** C2. For every window capacity C and every sequence of N calls to
    add_sample, each of the three rolling buffers (force, resp_rate,
    timestamps) has length exactly C and holds exactly the last C
    appended values in insertion order when N > C, has length N when
    N <= C, and never has more than C items. *)
Theorem rolling_buffers_hold_last_C (stdev : list Q → result Q) (C : nat)
    (now : Q) (ss : list sample) :
  ∃ st, add_samples stdev (init (Some C) now) ss = Ok st ∧
    length (s_force <$> ss) = length ss ∧
    length (s_resp_rate <$> ss) = length ss ∧
    length (s_timestamp <$> ss) = length ss ∧
    holds_last C (s_force <$> ss) (items (force_history st)) ∧
    holds_last C (s_resp_rate <$> ss) (items (resp_rate_history st)) ∧
    holds_last C (s_timestamp <$> ss) (items (timestamps st)).
Proof.
  destruct (add_samples_spec stdev (Some C) now ss)
    as (st & E & _ & _ & Hf & Hr & Ht & _).
  exists st. split; [done|]. rewrite !length_fmap, Hf, Hr, Ht. simpl.
  repeat (split; [done|]).
  split; [|split]; apply window_holds_last.
Qed.

(** C4, as the code has it. For every window capacity and every sequence
    of n calls to add_sample, get_derived_metrics()["breathing_depth"]
    equals max minus min of the current force buffer when that buffer
    holds at least 10 samples, and equals 0 when it holds fewer; the
    buffer holds min(n, capacity) samples, so the depth is 0 whenever
    n < 10. *)
Theorem depth_is_range_of_window (stdev : list Q → result Q)
    (ws : option nat) (now now' : Q) (ss : list sample) :
  ∃ st m d, add_samples stdev (init ws now) ss = Ok st ∧
    get_derived_metrics st now' = Ok m ∧
    m !! "breathing_depth" = Some (MNum d) ∧
    let buf := items (force_history st) in
    buf = window ws (s_force <$> ss) ∧
    length buf = match ws with
                 | Some C => Nat.min (length ss) C
                 | None => length ss
                 end ∧
    (10 ≤ length buf →
       ∃ hi lo, greatest hi buf ∧ least lo buf ∧ d = (hi - lo)%Q) ∧
    (length buf < 10 → d = 0%Q) ∧
    (length ss < 10 → d = 0%Q).
Proof.
  destruct (add_samples_spec stdev ws now ss)
    as (st & E & _ & _ & Hf & _ & _ & Hdep & _).
  destruct (get_derived_metrics_ok st now') as (m & Em & Hm & _).
  exists st, m, (breathing_depth st). repeat (split; [done|]).
  unfold deque_len in Hdep. rewrite Hf in *. simpl in *.
  split; [done|].
  assert (length (window ws (s_force <$> ss)) =
          match ws with Some C => Nat.min (length ss) C | None => length ss end) as Hlen.
  { rewrite window_length, length_fmap. done. }
  split; [done|].
  destruct (Nat.ltb_spec (length (window ws (s_force <$> ss))) 10) as [Hlt | Hge].
  - split; [lia|]. split; [done|]. done.
  - split; [|split].
    + intros _. destruct Hdep as (hi & lo & Hhi & Hlo & ->).
      destruct (py_max_greatest (window ws (s_force <$> ss))) as (hi' & Hhi' & Hg); [lia|].
      destruct (py_min_least (window ws (s_force <$> ss))) as (lo' & Hlo' & Hl); [lia|].
      exists hi, lo. split; [|split; [|done]]; congruence.
    + lia.
    + intros Hn. rewrite Hlen in Hge. destruct ws; lia.
Qed.

(** C4 as stated fails when the window capacity is below 10: with
    capacity 5 and the ten forces 1..10 the buffer is 6..10, its max
    minus min is 4, and the reported depth is 0. *)
Lemma depth_small_window_counterexample :
  ∃ st m,
    add_samples (statistics.stdev floor_sqrt) (init (Some 5) 0) (ramp 12 10) = Ok st ∧
    get_derived_metrics st 0 = Ok m ∧
    10 ≤ length (ramp 12 10) ∧
    items (force_history st) = [6; 7; 8; 9; 10]%Q ∧
    py_max (items (force_history st)) = Ok 10%Q ∧
    py_min (items (force_history st)) = Ok 6%Q ∧
    m !! "breathing_depth" = Some (MNum 0) ∧
    ¬ (0 == 10 - 6)%Q.
Proof.
  eexists. eexists. split; [vm_compute; reflexivity|].
  split; [vm_compute; reflexivity|].
  split; [vm_compute; lia|].
  repeat (split; [vm_compute; reflexivity|]).
  intros H. vm_compute in H. discriminate.
Qed.

Lemma py_max2_Qmax (a b : Q) : (py_max2 a b == Qmax a b)%Q.
Proof.
  unfold py_max2. destruct (py_gt b a) eqn:E.
  - apply py_gt_true in E. symmetry. apply Q.max_r. lra.
  - assert (b <= a)%Q as Hle.
    { destruct (Qlt_le_dec a b) as [Hlt | Hge]; [|done].
      apply py_gt_true in Hlt. congruence. }
    symmetry. by apply Q.max_l.
Qed.

(** C5, as the code has it. For every window capacity and every sequence
    of n calls to add_sample with numeric resp_rate values,
    get_derived_metrics()["breathing_regularity"] equals
    max(0, 1 - stdev(resp_rate buffer)/10) when the buffer holds at least
    10 samples and the standard deviation is computed (hence it is at
    least 0, at most 1 for a standard deviation that is not negative, and
    equal to 1 - stdev/10 when the standard deviation is at most 10),
    equals 0 when the standard-deviation computation fails, and equals 0
    when the buffer holds fewer than 10 samples, which is the case
    whenever n < 10. *)
Theorem regularity_of_window (stdev : list Q → result Q)
    (ws : option nat) (now now' : Q) (ss : list sample) :
  ∃ st m r, add_samples stdev (init ws now) ss = Ok st ∧
    get_derived_metrics st now' = Ok m ∧
    m !! "breathing_regularity" = Some (MNum r) ∧
    let buf := items (resp_rate_history st) in
    buf = window ws (s_resp_rate <$> ss) ∧
    length buf = match ws with
                 | Some C => Nat.min (length ss) C
                 | None => length ss
                 end ∧
    (10 ≤ length buf → ∀ sd, stdev buf = Ok sd →
       (r == Qmax 0 (1 - sd / 10))%Q ∧ (0 <= r)%Q ∧
       ((0 <= sd)%Q → (r <= 1)%Q) ∧
       ((sd <= 10)%Q → (r == 1 - sd / 10)%Q)) ∧
    (10 ≤ length buf → ∀ e, stdev buf = Raise e → r = 0%Q) ∧
    (length buf < 10 → r = 0%Q) ∧
    (length ss < 10 → r = 0%Q).
Proof.
  destruct (add_samples_spec stdev ws now ss)
    as (st & E & _ & _ & _ & Hr & _ & _ & Hreg).
  destruct (get_derived_metrics_ok st now') as (m & Em & _ & Hm).
  exists st, m, (breathing_regularity st). repeat (split; [done|]).
  unfold deque_len, regularity_of in Hreg. rewrite Hr in *. simpl in *.
  split; [done|].
  assert (length (window ws (s_resp_rate <$> ss)) =
          match ws with Some C => Nat.min (length ss) C | None => length ss end) as Hlen.
  { rewrite window_length, length_fmap. done. }
  split; [done|].
  destruct (Nat.ltb_spec (length (window ws (s_resp_rate <$> ss))) 10) as [Hlt | Hge].
  - repeat split; try done; lia.
  - split; [|split; [|split]].
    + intros _ sd Hsd. rewrite Hsd in Hreg. rewrite Hreg.
      pose proof (py_max2_Qmax 0 (1 - sd / 10)) as Hmax.
      assert (sd / 10 == sd * (1 # 10))%Q as Hdiv by reflexivity.
      split; [done|]. rewrite Hmax.
      split; [apply Q.le_max_l|]. split.
      * intros Hsd0. apply Q.max_lub; rewrite ?Hdiv; lra.
      * intros Hsd10. apply Q.max_r. rewrite Hdiv. lra.
    + intros _ e He. by rewrite He in Hreg.
    + lia.
    + intros Hn. rewrite Hlen in Hge. destruct ws; lia.
Qed.

(** C5 as stated fails when the window capacity is below 10: with
    capacity 5 and ten samples of respiration rate 12 the buffer is five
    times 12, its standard deviation is 0, max(0, 1 - 0/10) is 1, and the
    reported regularity is 0. *)
Lemma regularity_small_window_counterexample :
  ∃ st m,
    add_samples (statistics.stdev floor_sqrt) (init (Some 5) 0) (ramp 12 10) = Ok st ∧
    get_derived_metrics st 0 = Ok m ∧
    10 ≤ length (ramp 12 10) ∧
    items (resp_rate_history st) = [12; 12; 12; 12; 12]%Q ∧
    statistics.stdev floor_sqrt (items (resp_rate_history st)) = Ok 0%Q ∧
    m !! "breathing_regularity" = Some (MNum 0) ∧
    ¬ (0 == Qmax 0 (1 - 0 / 10))%Q.
Proof.
  eexists. eexists. split; [vm_compute; reflexivity|].
  split; [vm_compute; reflexivity|].
  split; [vm_compute; lia|].
  repeat (split; [vm_compute; reflexivity|]).
  intros H. vm_compute in H. discriminate.
Qed.


(** *** Shifting every force by the same constant *)









(** *** The standard deviation on ten values *)




End AnalyzerClaims.

(** * Properties of the bridge *)

Module BridgeProofs.
Import Bridge.

Lemma py_gt0_positive (v : json) (b : bool) : py_gt0 v = Ok b → positive v = b.
Proof.
  destruct v as [|b'|q|s|l|m]; simpl; try done.
  - by intros [= ->].
  - intros [= <-]. destruct (py_gt q 0) eqn:E.
    + apply AnalyzerProofs.py_gt_true in E. by apply bool_decide_eq_true_2.
    + apply bool_decide_eq_false_2. intros H.
      apply AnalyzerProofs.py_gt_true in H. congruence.
Qed.

(** [convert_to_unity_format] on an object, case by case. *)
Lemma convert_obj (m : gmap string json) (now : Q) (b : iOSToUnityBridge) :
  let msg := JObj m in
  let r := convert_to_unity_format msg now b in
  last_hrv r.1 = hrv_after msg b ∧
  last_breathing_phase r.1 = breathing_phase_after msg b ∧
  last_phase_duration r.1 = phase_duration_after msg b ∧
  running r.1 = running b ∧
  if accepted msg
  then r.2 = Ok (<["heart_rate_bpm" := default (JNum 0) (m !! "heart_rate")]>
                (<["hrv" := hrv_after msg b]>
                (<["breathing_phase" := breathing_phase_after msg b]>
                (<["phase_duration" := phase_duration_after msg b]>
                (<["force" := JNum 0]>
                (<["resp_rate_bpm" := JNum 0]>
                (<["steps" := JNum 0]>
                (<["step_rate_spm" := JNum 0]>
                (<["t" := default (JNum now) (m !! "timestamp")]> ∅)))))))))
  else r.2 = Raise TypeError.
Proof.
  unfold convert_to_unity_format, hrv_after, breathing_phase_after,
    phase_duration_after, accepted, supplied, py_and, when, eval, read.
  unfold mbind, method_bind, mret, method_ret. simpl.
  destruct (m !! "hrv") as [v|] eqn:Hh; simpl.
  - destruct (py_gt0 v) as [pos|e] eqn:Hv; simpl.
    + rewrite (py_gt0_positive _ _ Hv).
      assert (match v with JNum _ | JBool _ => true | _ => false end = true) as ->
        by (by destruct v).
      destruct pos; simpl;
        destruct (m !! "breathing_phase") as [p|]; simpl;
        try destruct (py_truthy p); simpl;
        destruct (m !! "phase_duration") as [d|]; simpl; done.
    + assert (match v with JNum _ | JBool _ => true | _ => false end = false) as ->
        by (by destruct v).
      assert (positive v = false) as -> by (by destruct v).
      assert (e = TypeError) as -> by (destruct v; simpl in Hv; congruence).
      destruct (m !! "breathing_phase"), (m !! "phase_duration"); done.
  - destruct (m !! "breathing_phase") as [p|]; simpl;
      try destruct (py_truthy p); simpl;
      destruct (m !! "phase_duration") as [d|]; simpl; done.
Qed.

(** On anything but an object the call raises before any assignment. *)
Lemma convert_non_obj (msg : json) (now : Q) (b : iOSToUnityBridge) :
  (∀ m, msg ≠ JObj m) → ∃ e, convert_to_unity_format msg now b = (b, Raise e).
Proof.
  intros Hno.
  unfold convert_to_unity_format, py_and, when, eval, read.
  unfold mbind, method_bind, mret, method_ret.
  destruct msg as [|x|q|s|l|m]; simpl; try by eexists.
  - destruct (str_contains "hrv" s); simpl; [by eexists|].
    destruct (str_contains "breathing_phase" s); simpl; [by eexists|].
    destruct (str_contains "phase_duration" s); simpl; by eexists.
  - destruct (existsb _ l); simpl; [by eexists|].
    destruct (existsb _ l); simpl; [by eexists|].
    destruct (existsb _ l); simpl; by eexists.
  - by destruct (Hno m).
Qed.

(** The cache after one call, and whether the call returns. *)
Lemma convert_spec (msg : json) (now : Q) (b : iOSToUnityBridge) :
  let r := convert_to_unity_format msg now b in
  last_hrv r.1 = hrv_after msg b ∧
  last_breathing_phase r.1 = breathing_phase_after msg b ∧
  last_phase_duration r.1 = phase_duration_after msg b ∧
  running r.1 = running b ∧
  (if accepted msg then ∃ out, r.2 = Ok out else ∃ e, r.2 = Raise e).
Proof.
  destruct msg as [|x|q|s|l|m].
  6: { pose proof (convert_obj m now b) as H. cbv zeta in *.
       destruct H as (H1 & H2 & H3 & H4 & H5). repeat (split; [done|]).
       destruct (accepted (JObj m)); by eexists. }
  all: match goal with |- context [convert_to_unity_format ?v _ _] =>
         destruct (convert_non_obj v now b) as [e He]; [done|] end.
  all: cbv zeta; rewrite He; simpl; repeat (split; [done|]); by eexists.
Qed.

Lemma convert_shape (msg : json) (now : Q) (b b' : iOSToUnityBridge)
    (out : gmap string json) :
  convert_to_unity_format msg now b = (b', Ok out) → unity_shape out.
Proof.
  intros E. destruct msg as [|x|q|s|l|m].
  6: { pose proof (convert_obj m now b) as H. cbv zeta in H.
       destruct H as (_ & _ & _ & _ & H). rewrite E in H.
       destruct (accepted (JObj m)); simpl in H; [|done]. injection H as ->.
       unfold unity_shape, unity_keys. split; [|by simplify_map_eq].
       rewrite !dom_insert_L, dom_empty_L. set_solver. }
  all: match type of E with convert_to_unity_format ?v _ _ = _ =>
         destruct (convert_non_obj v now b) as [e He]; [done|] end.
  all: congruence.
Qed.

Lemma convert_all_snoc (msgs : list (json * Q)) (msg : json) (now : Q)
    (b : iOSToUnityBridge) :
  convert_all (msgs ++ [(msg, now)]) b =
  (convert_to_unity_format msg now (convert_all msgs b)).1.
Proof.
  revert b. induction msgs as [|[m t] msgs IH]; intros b; simpl; [done|].
  apply IH.
Qed.

End BridgeProofs.

(** ** The specification's claims about the bridge *)

Module BridgeClaims.
Import Bridge BridgeProofs.

(** C1, as the code has it. For every sequence of incoming bridge
    messages, the cached hrv is overwritten only by a supplied value that
    is strictly positive, the cached breathing_phase only by a supplied
    value that is truthy (not empty), and the cached phase_duration by
    any supplied value, the last two provided the call returns; otherwise
    the previously cached value is retained. After the messages
    {hrv:45}, {}, {hrv:0} the cached hrv is still 45. *)
Theorem cache_update_rule (msgs : list (json * Q)) (msg : json) (now : Q) :
  let b := convert_all msgs init in
  let b' := (convert_to_unity_format msg now b).1 in
  last_hrv b' = hrv_after msg b ∧
  last_breathing_phase b' = breathing_phase_after msg b ∧
  last_phase_duration b' = phase_duration_after msg b ∧
  convert_all (msgs ++ [(msg, now)]) init = b' ∧
  last_hrv (convert_all [(obj [("hrv", JNum 45)], now); (obj [], now);
                         (obj [("hrv", JNum 0)], now)] init) = JNum 45.
Proof.
  cbv zeta.
  pose proof (convert_spec msg now (convert_all msgs init)) as H. cbv zeta in H.
  destruct H as (H1 & H2 & H3 & _). repeat (split; [done|]). split.
  - apply convert_all_snoc.
  - pose proof (convert_spec (obj [("hrv", JNum 45)]) now init) as Ha.
    cbv zeta in Ha. destruct Ha as (Ha & _).
    simpl.
    set (b1 := (convert_to_unity_format (obj [("hrv", JNum 45)]) now init).1) in *.
    pose proof (convert_spec (obj []) now b1) as Hb.
    cbv zeta in Hb. destruct Hb as (Hb & _).
    set (b2 := (convert_to_unity_format (obj []) now b1).1) in *.
    pose proof (convert_spec (obj [("hrv", JNum 0)]) now b2) as Hc.
    cbv zeta in Hc. destruct Hc as (Hc & _).
    rewrite Hc. unfold hrv_after. simpl.
    rewrite Hb. unfold hrv_after. simpl. rewrite Ha. done.
Qed.

(** C1 as stated fails for phase_duration: after {phase_duration: 2.5}
    the message {phase_duration: 0} supplies the default value 0, and
    the cached phase_duration becomes 0 instead of staying 2.5. *)
Lemma phase_duration_zero_counterexample :
  let b := convert_all [(obj [("phase_duration", JNum 2.5)], 0%Q)] init in
  let msg := obj [("phase_duration", JNum 0)] in
  last_phase_duration b = JNum 2.5 ∧
  supplied "phase_duration" msg = Some (JNum 0) ∧
  non_default (JNum 0) = false ∧
  phase_duration_claimed msg b = JNum 2.5 ∧
  last_phase_duration (convert_to_unity_format msg 0 b).1 = JNum 0 ∧
  JNum 0 ≠ JNum 2.5.
Proof.
  cbv zeta. repeat (split; [vm_compute; reflexivity|]). intros H. discriminate H.
Qed.

Lemma send_to_unity_sent (out : gmap string json) (outcome : result ()) (w : world) :
  sent (send_to_unity out outcome w) = sent w ∨
  sent (send_to_unity out outcome w) = sent w ++ [out].
Proof. destruct outcome; simpl; auto. Qed.

Section WithCodec.
Variable decode_utf8 : list Byte.byte → result string.
Variable json_loads : string → result json.

(** One turn of the loop sends nothing, or one mapping of the fixed
    shape. *)
Lemma receive_once_sent (ev : turn) (w : world) :
  sent (receive_once decode_utf8 json_loads ev w) = sent w ∨
  ∃ out, sent (receive_once decode_utf8 json_loads ev w) = sent w ++ [out] ∧
         unity_shape out.
Proof.
  unfold receive_once, on_receive_error.
  destruct (recvfrom ev) as [[data addr]|e]; [|destruct (running _); by left].
  destruct (decode_utf8 data) as [s|e]; [|destruct (running _); by left].
  destruct (json_loads s) as [msg|e]; [|simpl; destruct (running _); by left].
  simpl.
  destruct (convert_to_unity_format msg (clock ev) (self w)) as [b' [out|e]] eqn:E.
  - destruct (send_to_unity_sent out (sendto ev)
                (set_self (print (LogReceived addr s) w) b')) as [-> | ->];
      [by left | right].
    exists out. split; [done|]. by eapply convert_shape.
  - simpl. destruct (running b'); by left.
Qed.

Lemma receive_from_ios_sent (evs : list turn) (w : world) :
  Forall unity_shape (sent w) →
  Forall unity_shape (sent (receive_from_ios decode_utf8 json_loads evs w)).
Proof.
  revert w. induction evs as [|ev evs IH]; intros w Hw; simpl; [done|].
  destruct (running (self w)); [|done]. apply IH.
  destruct (receive_once_sent ev w) as [-> | (out & -> & Hout)]; [done|].
  apply Forall_app. split; [done|]. by constructor.
Qed.
End WithCodec.

(** C3. For every incoming message, the very first included, the mapping
    produced by convert_to_unity_format and forwarded to Unity has
    exactly the nine keys heart_rate_bpm, hrv, breathing_phase,
    phase_duration, force, resp_rate_bpm, steps, step_rate_spm, t, with
    force, resp_rate_bpm, steps and step_rate_spm equal to 0; a first
    message that is an object supplying none of hrv, breathing_phase and
    phase_duration is converted, with hrv 0, breathing_phase the empty
    string and phase_duration 0. *)
Theorem unity_mapping_has_nine_keys (msg : json) (now : Q) (b : iOSToUnityBridge) :
  (∀ b' out, convert_to_unity_format msg now b = (b', Ok out) →
     unity_shape out ∧ size out = 9) ∧
  (∀ decode_utf8 json_loads evs w, sent w = [] →
     Forall unity_shape (sent (receive_from_ios decode_utf8 json_loads evs w))) ∧
  (∀ m, msg = JObj m →
     m !! "hrv" = None → m !! "breathing_phase" = None →
     m !! "phase_duration" = None →
     ∃ b' out, convert_to_unity_format msg now init = (b', Ok out) ∧
       unity_shape out ∧
       out !! "heart_rate_bpm" = Some (default (JNum 0) (m !! "heart_rate")) ∧
       out !! "hrv" = Some (JNum 0) ∧
       out !! "breathing_phase" = Some (JStr "") ∧
       out !! "phase_duration" = Some (JNum 0) ∧
       out !! "t" = Some (default (JNum now) (m !! "timestamp"))).
Proof.
  split; [|split].
  - intros b' out E. pose proof (convert_shape _ _ _ _ _ E) as Hs.
    split; [done|]. destruct Hs as [Hdom _].
    rewrite <- size_dom, Hdom. by vm_compute.
  - intros decode_utf8 json_loads evs w Hw. apply receive_from_ios_sent.
    rewrite Hw. constructor.
  - intros m -> Hh Hp Hd.
    pose proof (convert_obj m now init) as H. cbv zeta in H.
    destruct H as (_ & _ & _ & _ & H).
    unfold accepted, hrv_after, breathing_phase_after, phase_duration_after,
      supplied in H. rewrite Hh, Hp, Hd in H. simpl in H.
    destruct (convert_to_unity_format (JObj m) now init) as [b' r] eqn:E.
    simpl in H. subst r. eexists _, _. split; [done|].
    split; [by eapply convert_shape|]. by simplify_map_eq.
Qed.

(** C8. If a datagram received by the bridge fails UTF-8 decoding or
    JSON parsing, the error is caught and logged, no message is forwarded
    to Unity for that datagram, the cached values (last_hrv,
    last_breathing_phase, last_phase_duration) are left unchanged, and the
    receive loop goes on with the subsequent datagrams. *)
Theorem malformed_datagram_is_dropped
    (decode_utf8 : list Byte.byte → result string)
    (json_loads : string → result json)
    (ev : turn) (w : world) (data : list Byte.byte) (addr : string) (e : exn) :
  running (self w) = true →
  recvfrom ev = Ok (data, addr) →
  decode_utf8 data = Raise e ∨
    (∃ s, decode_utf8 data = Ok s ∧ json_loads s = Raise e) →
  let w' := receive_once decode_utf8 json_loads ev w in
  self w' = self w ∧
  sent w' = sent w ∧
  (log w' = log w ++ [LogReceiveError e] ∨
   ∃ s, log w' = log w ++ [LogReceived addr s; LogReceiveError e]) ∧
  running (self w') = true ∧
  ∀ rest, receive_from_ios decode_utf8 json_loads (ev :: rest) w =
          receive_from_ios decode_utf8 json_loads rest w'.
Proof.
  intros Hrun Hrecv Hbad. cbv zeta.
  assert (∀ rest, receive_from_ios decode_utf8 json_loads (ev :: rest) w =
            receive_from_ios decode_utf8 json_loads rest
              (receive_once decode_utf8 json_loads ev w)) as Hloop.
  { intros rest. simpl. by rewrite Hrun. }
  unfold receive_once, on_receive_error in *. rewrite Hrecv in *.
  destruct Hbad as [Hd | (s & Hd & Hl)]; rewrite Hd in *.
  - rewrite Hrun in *. simpl. repeat (split; [done|]). split; [by left|]. done.
  - rewrite Hl in *. simpl in *. rewrite Hrun in *. simpl.
    repeat (split; [done|]). split; [right; exists s; by rewrite <- app_assoc|].
    done.
Qed.

Lemma malformed_datagram_is_dropped_witness :
  let decode_utf8 : list Byte.byte → result string := λ _, Raise UnicodeDecodeError in
  let json_loads : string → result json := λ _, Raise JSONDecodeError in
  let ev := mkTurn (Ok ([Byte.xff], "172.16.68.20")) 0 (Ok ()) in
  let w := mkWorld (set_running true init) [] [] in
  let w' := receive_once decode_utf8 json_loads ev w in
  self w' = self w ∧
  sent w' = sent w ∧
  (log w' = log w ++ [LogReceiveError UnicodeDecodeError] ∨
   ∃ s, log w' = log w ++ [LogReceived "172.16.68.20" s;
                           LogReceiveError UnicodeDecodeError]) ∧
  running (self w') = true ∧
  ∀ rest, receive_from_ios decode_utf8 json_loads (ev :: rest) w =
          receive_from_ios decode_utf8 json_loads rest w'.
Proof.
  cbv zeta.
  apply (malformed_datagram_is_dropped
           (λ _, Raise UnicodeDecodeError) (λ _, Raise JSONDecodeError)
           (mkTurn (Ok ([Byte.xff], "172.16.68.20")) 0 (Ok ()))
           (mkWorld (set_running true init) [] [])
           [Byte.xff] "172.16.68.20" UnicodeDecodeError).
  - reflexivity.
  - reflexivity.
  - left. reflexivity.
Defined.

(** C9. The heart_rate field is never cached by the bridge: for every
    incoming message that lacks the heart_rate key, the forwarded
    heart_rate_bpm is 0, whatever the earlier messages supplied; such a
    message is forwarded whenever it is accepted. *)
Theorem heart_rate_is_not_cached (msgs : list (json * Q))
    (m : gmap string json) (now : Q) :
  m !! "heart_rate" = None →
  let b := convert_all msgs init in
  (∀ b' out, convert_to_unity_format (JObj m) now b = (b', Ok out) →
     out !! "heart_rate_bpm" = Some (JNum 0)) ∧
  (accepted (JObj m) = true →
     ∃ b' out, convert_to_unity_format (JObj m) now b = (b', Ok out) ∧
       out !! "heart_rate_bpm" = Some (JNum 0)).
Proof.
  intros Hhr. cbv zeta.
  pose proof (convert_obj m now (convert_all msgs init)) as H. cbv zeta in H.
  destruct H as (_ & _ & _ & _ & H). rewrite Hhr in H.
  split.
  - intros b' out E. rewrite E in H.
    destruct (accepted (JObj m)); simpl in H; [|done].
    injection H as ->. by simplify_map_eq.
  - intros Hacc. rewrite Hacc in H.
    destruct (convert_to_unity_format (JObj m) now (convert_all msgs init))
      as [b' r]. simpl in H. subst r.
    eexists _, _. split; [done|]. by simplify_map_eq.
Qed.

Lemma heart_rate_is_not_cached_witness :
  let earlier := [(obj [("heart_rate", JNum 72); ("hrv", JNum 45)], 1%Q)] in
  let b := convert_all earlier init in
  (∅ : gmap string json) !! "heart_rate" = None ∧
  (∀ b' out, convert_to_unity_format (JObj ∅) 2 b = (b', Ok out) →
     out !! "heart_rate_bpm" = Some (JNum 0)) ∧
  (accepted (JObj ∅) = true →
     ∃ b' out, convert_to_unity_format (JObj ∅) 2 b = (b', Ok out) ∧
       out !! "heart_rate_bpm" = Some (JNum 0)).
Proof.
  cbv zeta. split; [reflexivity|].
  apply (heart_rate_is_not_cached
           [(obj [("heart_rate", JNum 72); ("hrv", JNum 45)], 1%Q)] ∅ 2).
  reflexivity.
Defined.

End BridgeClaims.
